(** * DialogueSummarizer: a shallow embedding of [src/dialogue_summarizer.py]

    The Python class [DialogueSummarizer] is embedded in two layers.

    - The prompt builder ([_create_prompt], [_get_one_shot_example],
      [_get_few_shot_examples]) is pure string formatting; it becomes
      ordinary functions on [string].  Every method keeps its [self]
      parameter, as in the source.
    - [__init__], [load_model] and [summarize] mutate the object, call
      the transformers library and print; they live in a
      state-and-exception monad over the object's fields, the state of the
      outside world and a log of what crossed the boundary of the program.
      Every call into the library and every [print] may raise.

    A Python [str] is modelled by [string] (its UTF-8 bytes), a Python
    [int] by [Z].

    The block under [if __name__ == "__main__":] and the script
    [test_setup.py] are embedded after the class. *)

From Stdlib Require Import String Ascii List ZArith Bool Arith Lia.
Import ListNotations.
Open Scope string_scope.

(** ** Strings *)

Module Str.

(** The line feed that Python writes [\n]. *)
Definition LF : string := String (ascii_of_nat 10) EmptyString.

(** [p] is a substring of [s]: Python's [p in s]. *)
Definition substring_of (p s : string) : Prop :=
  exists pre post, s = pre ++ p ++ post.

(** [s] ends with [p]: Python's [s.endswith(p)]. *)
Definition ends_with (s p : string) : Prop :=
  exists pre, s = pre ++ p.

(** Number of positions of [s] at which [p] starts. *)
Fixpoint occurrences (p s : string) : nat :=
  (if prefix p s then 1 else 0) +
  match s with
  | EmptyString => 0
  | String _ s' => occurrences p s'
  end.

(** Decidable form of [substring_of]. *)
Definition contains (p s : string) : bool :=
  negb (Nat.eqb (occurrences p s) 0).

(** [differs p k]: [p] and [k] disagree at a position both have. *)
Fixpoint differs (p k : string) : bool :=
  match p, k with
  | String a p', String b k' =>
      if Ascii.eqb a b then differs p' k' else true
  | _, _ => false
  end.

(** [p] disagrees, inside [k], with every non-empty suffix of [k]. *)
Fixpoint differs_everywhere (p k : string) : bool :=
  match k with
  | EmptyString => true
  | String _ k' => differs p k && differs_everywhere p k'
  end.

(** Membership of a character. *)
Fixpoint mem (c : ascii) (s : string) : bool :=
  match s with
  | EmptyString => false
  | String a s' => Ascii.eqb c a || mem c s'
  end.

(** Last character, if any. *)
Fixpoint last (s : string) : option ascii :=
  match s with
  | EmptyString => None
  | String a EmptyString => Some a
  | String _ s' => last s'
  end.

End Str.

Import Str.

(** ** The object *)

Section Object.

(** Handles of the transformers library are opaque to this program. *)
Variables Model Tokenizer : Type.

(** The instance attributes set by [__init__]. *)
Record DialogueSummarizer : Type := mkSummarizer {
  model_name : string;
  model : option Model;
  tokenizer : option Tokenizer;
  is_loaded : bool
}.

(** [DialogueSummarizer.__init__], default [model_name="google/flan-t5-base"]. *)
Definition default_model_name : string := "google/flan-t5-base".

Definition __init__ (model_name : string) : DialogueSummarizer :=
  {| model_name := model_name;
     model := None;
     tokenizer := None;
     is_loaded := false |}.

(** *** Prompt builder *)

(** [_get_one_shot_example]: the Tom/watch example. *)
Definition _get_one_shot_example (self : DialogueSummarizer) : string :=
"Dialogue:
#Person1#: What time is it, Tom?
#Person2#: Just a minute. It's ten to nine by my watch.
#Person1#: Is it? I had no idea it was so late. I must be off now.
#Person2#: What's the hurry?
#Person1#: I must catch the nine-thirty train.
#Person2#: You've plenty of time yet. The railway station is very close.

Summary: #Person1# is in a hurry to catch a train. Tom tells #Person1# there is plenty of time.".

(** The second literal of [_get_few_shot_examples]: the May/picnic example. *)
Definition picnic_example : string :=
"Dialogue:
#Person1#: May, do you mind helping me prepare for the picnic?
#Person2#: Sure. Have you checked the weather report?
#Person1#: Yes. It says it will be sunny all day.

Summary: Mom asks May to help prepare for the picnic and May agrees.".

(** [_get_few_shot_examples]; [String.concat sep l] is Python's [sep.join(l)]. *)
Definition _get_few_shot_examples (self : DialogueSummarizer) : string :=
  let examples := [ _get_one_shot_example self; picnic_example ] in
  String.concat (LF ++ LF) examples.

(** [_create_prompt]. *)
Definition _create_prompt (self : DialogueSummarizer)
           (dialogue method : string) : string :=
  if method =? "zero-shot" then
    "Summarize the following conversation:" ++ LF ++ LF ++ dialogue
      ++ LF ++ LF ++ "Summary:"
  else if method =? "one-shot" then
    let example := _get_one_shot_example self in
    example ++ LF ++ LF ++ "Dialogue:" ++ LF ++ dialogue
      ++ LF ++ LF ++ "Summary:"
  else if method =? "few-shot" then
    let examples := _get_few_shot_examples self in
    examples ++ LF ++ LF ++ "Dialogue:" ++ LF ++ dialogue
      ++ LF ++ LF ++ "Summary:"
  else
    "Summarize this dialogue: " ++ dialogue.

End Object.

Arguments mkSummarizer {Model Tokenizer}.
Arguments model_name {Model Tokenizer}.
Arguments model {Model Tokenizer}.
Arguments tokenizer {Model Tokenizer}.
Arguments is_loaded {Model Tokenizer}.
Arguments __init__ {Model Tokenizer}.
Arguments _get_one_shot_example {Model Tokenizer}.
Arguments _get_few_shot_examples {Model Tokenizer}.
Arguments _create_prompt {Model Tokenizer} self dialogue method : simpl never.

(** ** The transformers library *)

(** A raised Python exception: its class name and the text [str(e)] gives.
    The type stands for the instances of [Exception], which is what
    [except Exception] catches; signals outside that class
    ([KeyboardInterrupt], [SystemExit]) are not modelled. *)
Inductive exn : Type := PyExc (cls msg : string).

Definition str (e : exn) : string :=
  match e with PyExc _ msg => msg end.

(** What a call does: return a value or raise. *)
Inductive result (A : Type) : Type :=
| Return (a : A)
| Raise (e : exn).
Arguments Return {A} a.
Arguments Raise {A} e.

(** Token ids of one sequence, and a batch of such rows. *)
Definition TokenIds : Type := list Z.
Definition Batch : Type := list TokenIds.

(** The mapping a tokenizer call returns; the program reads [input_ids]. *)
Record BatchEncoding : Type := mkEncoding {
  input_ids : Batch;
  attention_mask : Batch
}.

(** What the program uses of its environment: the operations of the
    library it calls, and the standard output [print] writes to.  Each one
    may raise and may change the outside world (caches, network, devices,
    the console). *)
Class Transformers : Type := {
  World : Type;
  Model : Type;
  Tokenizer : Type;
  (** [AutoModelForSeq2SeqLM.from_pretrained(name)] *)
  model_from_pretrained : string -> World -> result Model * World;
  (** [AutoTokenizer.from_pretrained(name, use_fast=...)] *)
  tokenizer_from_pretrained :
    string -> bool -> World -> result Tokenizer * World;
  (** [tokenizer(text, return_tensors=..., truncation=...)] *)
  tokenizer_call :
    Tokenizer -> string -> string -> bool -> World ->
    result BatchEncoding * World;
  (** [model.generate(ids, max_new_tokens=..., num_beams=..., early_stopping=...)] *)
  model_generate :
    Model -> Batch -> Z -> Z -> bool -> World -> result Batch * World;
  (** [tokenizer.decode(ids, skip_special_tokens=...)] *)
  tokenizer_decode :
    Tokenizer -> TokenIds -> bool -> World -> result string * World;
  (** Writing one line to [sys.stdout], as [print] does; it raises, for
      instance, [UnicodeEncodeError] when the stream cannot encode the
      line, or [BrokenPipeError]. *)
  stdout_write : string -> World -> result unit * World
}.

(** ** The program *)

Section Program.

Context {lib : Transformers}.

Definition Self : Type := DialogueSummarizer Model Tokenizer.

(** What an observer at the boundary of the program sees, in order: the
    entry into the method [load_model], each call into the library with
    its arguments and what it gave back, each printed line ([Ev_print]),
    each [print] that raised instead of printing ([Ev_print_raised]), and
    the entry into and exit from the [torch.no_grad()] block. *)
Inductive Event : Type :=
| Call_load_model
| Ev_model_from_pretrained (name : string) (r : result Model)
| Ev_tokenizer_from_pretrained (name : string) (use_fast : bool)
                               (r : result Tokenizer)
| Ev_print (line : string)
| Ev_tokenizer_call (t : Tokenizer) (text return_tensors : string)
                    (truncation : bool) (r : result BatchEncoding)
| Ev_no_grad_enter
| Ev_no_grad_exit
| Ev_generate (m : Model) (ids : Batch) (max_new_tokens num_beams : Z)
              (early_stopping : bool) (r : result Batch)
| Ev_decode (t : Tokenizer) (ids : TokenIds) (skip_special_tokens : bool)
            (r : result string)
| Ev_print_raised (line : string) (e : exn).

(** The object and the world it runs in. *)
Record State : Type := mkState {
  self : Self;
  world : World
}.

(** A computation: from a state to a result, the state left behind (also
    when it raises) and the events it caused. *)
Definition M (A : Type) : Type := State -> result A * State * list Event.

Definition ret {A} (a : A) : M A := fun s => (Return a, s, []).

Definition raise {A} (e : exn) : M A := fun s => (Raise e, s, []).

Definition bind {A B} (c : M A) (k : A -> M B) : M B :=
  fun s =>
    match c s with
    | (Return a, s1, ev1) =>
        let '(r, s2, ev2) := k a s1 in (r, s2, (ev1 ++ ev2)%list)
    | (Raise e, s1, ev1) => (Raise e, s1, ev1)
    end.

(** [try: body / except Exception as e: handler e]. *)
Definition try_except {A} (body : M A) (handler : exn -> M A) : M A :=
  fun s =>
    match body s with
    | (Return a, s1, ev1) => (Return a, s1, ev1)
    | (Raise e, s1, ev1) =>
        let '(r, s2, ev2) := handler e s1 in (r, s2, (ev1 ++ ev2)%list)
    end.

Definition emit (ev : Event) : M unit := fun s => (Return tt, s, [ev]).

(** [with torch.no_grad(): body]: gradient recording is switched off on
    entry and restored on exit, also when [body] raises. *)
Definition with_no_grad {A} (body : M A) : M A :=
  fun s =>
    let '(r, s1, ev1) := body s in
    (r, s1, ([Ev_no_grad_enter] ++ ev1 ++ [Ev_no_grad_exit])%list).

(** Reading and assigning the attributes of [self]. *)
Definition get {A} (field : Self -> A) : M A :=
  fun s => (Return (field (self s)), s, []).

Definition assign (update : Self -> Self) : M unit :=
  fun s => (Return tt, mkState (update (self s)) (world s), []).

Definition with_model (v : option Model) (o : Self) : Self :=
  mkSummarizer (model_name o) v (tokenizer o) (is_loaded o).

Definition with_tokenizer (v : option Tokenizer) (o : Self) : Self :=
  mkSummarizer (model_name o) (model o) v (is_loaded o).

Definition with_is_loaded (v : bool) (o : Self) : Self :=
  mkSummarizer (model_name o) (model o) (tokenizer o) v.

(** A call into the library, logged with what it gave back. *)
Definition extern {A} (f : World -> result A * World)
           (ev : result A -> Event) : M A :=
  fun s =>
    let '(r, w) := f (world s) in (r, mkState (self s) w, [ev r]).

(** [print(line)]: the line is written to standard output, or the
    exception of the stream is raised and nothing is printed. *)
Definition print (line : string) : M unit :=
  fun s =>
    match stdout_write line (world s) with
    | (Return _, w) => (Return tt, mkState (self s) w, [Ev_print line])
    | (Raise e, w) => (Raise e, mkState (self s) w, [Ev_print_raised line e])
    end.

Declare Scope monad_scope.
Notation "x <- c1 ;; c2" := (bind c1 (fun x => c2))
  (at level 61, c1 at next level, right associativity) : monad_scope.
Notation "c1 ;; c2" := (bind c1 (fun _ => c2))
  (at level 61, right associativity) : monad_scope.
Open Scope monad_scope.

(** What Python raises when [None] is called or asked for an attribute. *)
Definition NoneType_not_callable : exn :=
  PyExc "TypeError" "'NoneType' object is not callable".

Definition NoneType_no_attribute (attr : string) : exn :=
  PyExc "AttributeError"
        ("'NoneType' object has no attribute '" ++ attr ++ "'").

Definition index_out_of_bounds : exn :=
  PyExc "IndexError"
        "index 0 is out of bounds for dimension 0 with size 0".

(** [load_model]. *)
Definition load_model : M unit :=
  emit Call_load_model ;;
  try_except
    (name <- get model_name ;;
     m <- extern (model_from_pretrained name)
                 (Ev_model_from_pretrained name) ;;
     assign (with_model (Some m)) ;;
     name <- get model_name ;;
     t <- extern (tokenizer_from_pretrained name true)
                 (Ev_tokenizer_from_pretrained name true) ;;
     assign (with_tokenizer (Some t)) ;;
     assign (with_is_loaded true) ;;
     name <- get model_name ;;
     print ("✅ Model " ++ name ++ " loaded successfully!"))
    (fun e =>
       print ("❌ Error loading model: " ++ str e) ;;
       assign (with_is_loaded false)).

(** [outputs[0]]. *)
Definition first_row (outputs : Batch) : M TokenIds :=
  match outputs with
  | row :: _ => ret row
  | [] => raise index_out_of_bounds
  end.

(** [summarize]; the source's defaults are [method="few-shot"] and
    [max_length=50]. *)
Definition summarize (dialogue : string) (method : string)
           (max_length : Z) : M string :=
  loaded <- get is_loaded ;;
  (if negb loaded then load_model else ret tt) ;;
  me <- get (fun o => o) ;;
  let prompt := _create_prompt me dialogue method in
  tok <- get tokenizer ;;
  inputs <- match tok with
            | Some t => extern (tokenizer_call t prompt "pt" true)
                               (Ev_tokenizer_call t prompt "pt" true)
            | None => raise NoneType_not_callable
            end ;;
  outputs <- with_no_grad
               (mdl <- get model ;;
                match mdl with
                | Some m =>
                    extern (model_generate m (input_ids inputs)
                                           max_length 4%Z true)
                           (Ev_generate m (input_ids inputs)
                                        max_length 4%Z true)
                | None => raise (NoneType_no_attribute "generate")
                end) ;;
  tok <- get tokenizer ;;
  summary <- match tok with
             | Some t =>
                 row <- first_row outputs ;;
                 extern (tokenizer_decode t row true)
                        (Ev_decode t row true)
             | None => raise (NoneType_no_attribute "decode")
             end ;;
  ret summary.

(** *** Clients *)

(** One operation a client performs on the object. *)
Inductive Op : Type :=
| Op_load_model
| Op_summarize (dialogue method : string) (max_length : Z).

Definition perform (op : Op) (s : State) : State * list Event :=
  match op with
  | Op_load_model =>
      let '(_, s1, ev) := load_model s in (s1, ev)
  | Op_summarize d m n =>
      let '(_, s1, ev) := summarize d m n s in (s1, ev)
  end.

(** A client runs operations one after the other on the same object and
    goes on after one of them raised. *)
Fixpoint run (ops : list Op) (s : State) : State * list Event :=
  match ops with
  | [] => (s, [])
  | op :: rest =>
      let '(s1, ev1) := perform op s in
      let '(s2, ev2) := run rest s1 in
      (s2, (ev1 ++ ev2)%list)
  end.

(** A freshly constructed object in a given world. *)
Definition construct (name : string) (w : World) : State :=
  mkState (__init__ name) w.

(** *** Observations *)

Definition is_set {A} (v : option A) : bool :=
  match v with Some _ => true | None => false end.

(** Both handles unset or both set. *)
Definition paired (o : Self) : bool :=
  match model o, tokenizer o with
  | None, None => true
  | Some _, Some _ => true
  | _, _ => false
  end.

(** What every reachable object satisfies: a tokenizer is never there
    without a model, and a loaded object has a tokenizer. *)
Definition consistent (o : Self) : bool :=
  implb (is_set (tokenizer o)) (is_set (model o)) &&
  implb (is_loaded o) (is_set (tokenizer o)).

Definition is_call_load_model (ev : Event) : bool :=
  match ev with Call_load_model => true | _ => false end.

Definition is_generate (ev : Event) : bool :=
  match ev with Ev_generate _ _ _ _ _ _ => true | _ => false end.

Definition is_decode (ev : Event) : bool :=
  match ev with Ev_decode _ _ _ _ => true | _ => false end.

Definition is_print (ev : Event) : bool :=
  match ev with Ev_print _ => true | _ => false end.

Definition is_print_raised (ev : Event) : bool :=
  match ev with Ev_print_raised _ _ => true | _ => false end.

(** A model acquisition that returned a model. *)
Definition is_model_acquired (ev : Event) : bool :=
  match ev with
  | Ev_model_from_pretrained _ (Return _) => true
  | _ => false
  end.

(** A tokenizer acquisition that returned a tokenizer. *)
Definition is_tokenizer_acquired (ev : Event) : bool :=
  match ev with
  | Ev_tokenizer_from_pretrained _ _ (Return _) => true
  | _ => false
  end.

Definition count (f : Event -> bool) (evs : list Event) : nat :=
  length (filter f evs).

(** The acquisition of [load_model] fails in world [w]: the model, or
    after it the tokenizer, raises. *)
Definition acquisition_fails (name : string) (w : World) : Prop :=
  (exists e w1, model_from_pretrained name w = (Raise e, w1)) \/
  (exists m w1 e w2,
      model_from_pretrained name w = (Return m, w1) /\
      tokenizer_from_pretrained name true w1 = (Raise e, w2)).

End Program.

(** ** A library double

    A small, fully computable instance of the library interface: whether
    the two acquisitions succeed is fixed by two flags, the world counts
    the calls made into the library so far, standard output takes every
    line. *)

Module Toy.

Definition load_error : exn := PyExc "OSError" "not a valid model identifier".

Definition encode (text : string) : BatchEncoding :=
  mkEncoding [[Z.of_nat (String.length text); 1%Z]] [[1%Z; 1%Z]].

Definition library (model_ok tokenizer_ok : bool) : Transformers := {|
  World := nat;
  Model := string;
  Tokenizer := string;
  model_from_pretrained name w :=
    (if model_ok then Return ("model:" ++ name) else Raise load_error, S w);
  tokenizer_from_pretrained name use_fast w :=
    (if tokenizer_ok then Return ("tokenizer:" ++ name)
     else Raise load_error, S w);
  tokenizer_call t text return_tensors truncation w :=
    (Return (encode text), S w);
  model_generate m ids max_new_tokens num_beams early_stopping w :=
    (Return [[0%Z; 7%Z; 8%Z; 1%Z]; [0%Z; 9%Z; 1%Z]], S w);
  tokenizer_decode t ids skip_special_tokens w :=
    (Return "Tom tells #Person1# there is time.", S w);
  stdout_write line w := (Return tt, w)
|}.

(** An object that nobody has loaded yet. *)
Definition fresh (model_ok tokenizer_ok : bool)
  : @State (library model_ok tokenizer_ok) :=
  @construct (library model_ok tokenizer_ok) default_model_name 0.

(** An object by itself, for the prompt builder. *)
Definition object : DialogueSummarizer string string :=
  __init__ default_model_name.

(** A dialogue a caller may pass: the text of the Tom/watch example from
    its second line on (all but the ten characters of its first line). *)
Definition headless_example : string :=
  let e := _get_one_shot_example object in
  substring 10 (String.length e - 10) e.

End Toy.

(** ** The script at the end of the module *)

Section Script.

Context {lib : Transformers}.

(** The defaults of [summarize]: [method="few-shot"], [max_length=50]. *)
Definition default_method : string := "few-shot".
Definition default_max_length : Z := 50%Z.

(** [test_dialogue] of the [__main__] block, a triple-quoted literal. *)
Definition test_dialogue : string :=
"
    #Person1#: Have you considered upgrading your system?
    #Person2#: Yes, but I'm not sure what exactly I would need.
    #Person1#: You could consider adding a painting program to your software.
    ".

(** The block under [if __name__ == "__main__":], run in world [w]:
    it builds an object with the default model name, summarizes
    [test_dialogue] with [method="few-shot"] and the default [max_length],
    and prints the summary. *)
Definition main (w : World) : result unit * State * list Event :=
  let summarizer := construct default_model_name w in
  bind (summarize test_dialogue "few-shot" default_max_length)
       (fun summary => print ("Generated Summary: " ++ summary))
       summarizer.

(** *** More observations *)

Definition is_no_grad_enter (ev : Event) : bool :=
  match ev with Ev_no_grad_enter => true | _ => false end.

Definition is_no_grad_exit (ev : Event) : bool :=
  match ev with Ev_no_grad_exit => true | _ => false end.

Definition is_tokenizer_call (ev : Event) : bool :=
  match ev with Ev_tokenizer_call _ _ _ _ _ => true | _ => false end.

(** A call of one of the two [from_pretrained]. *)
Definition is_acquisition (ev : Event) : bool :=
  match ev with
  | Ev_model_from_pretrained _ _ => true
  | Ev_tokenizer_from_pretrained _ _ _ => true
  | _ => false
  end.

(** An acquisition made for the name [name], the tokenizer's with
    [use_fast=True]; any other event passes. *)
Definition acquires_for (name : string) (ev : Event) : bool :=
  match ev with
  | Ev_model_from_pretrained n _ => n =? name
  | Ev_tokenizer_from_pretrained n use_fast _ => (n =? name) && use_fast
  | _ => true
  end.

Definition is_summarize (op : Op) : bool :=
  match op with Op_summarize _ _ _ => true | Op_load_model => false end.

End Script.

(** ** A library double that follows a script

    The world is the list of outcomes the coming acquisitions will have
    ([true]: the handle is returned, [false]: the call raises); each
    acquisition consumes one, and raises once the script is used up.  The
    other operations are those of [Toy.library]. *)

Module Scripted.

Definition acquire (handle : string) (w : list bool)
  : result string * list bool :=
  match w with
  | true :: w' => (Return handle, w')
  | false :: w' => (Raise Toy.load_error, w')
  | [] => (Raise Toy.load_error, [])
  end.

Definition library : Transformers := {|
  World := list bool;
  Model := string;
  Tokenizer := string;
  model_from_pretrained name w := acquire ("model:" ++ name) w;
  tokenizer_from_pretrained name use_fast w :=
    acquire ("tokenizer:" ++ name) w;
  tokenizer_call t text return_tensors truncation w :=
    (Return (Toy.encode text), w);
  model_generate m ids max_new_tokens num_beams early_stopping w :=
    (Return [[0%Z; 7%Z; 8%Z; 1%Z]; [0%Z; 9%Z; 1%Z]], w);
  tokenizer_decode t ids skip_special_tokens w :=
    (Return "Tom tells #Person1# there is time.", w);
  stdout_write line w := (Return tt, w)
|}.

Definition fresh (script : list bool) : @State library :=
  @construct library default_model_name script.

End Scripted.

(** ** A library double whose later stages can fail

    Both acquisitions succeed; the tokenizer call and [generate] raise when
    their flag is [false]. *)

Module Faulty.

Definition overflow : exn := PyExc "RuntimeError" "CUDA out of memory".

Definition library (tokenize_ok generate_ok : bool) : Transformers := {|
  World := nat;
  Model := string;
  Tokenizer := string;
  model_from_pretrained name w := (Return ("model:" ++ name), S w);
  tokenizer_from_pretrained name use_fast w :=
    (Return ("tokenizer:" ++ name), S w);
  tokenizer_call t text return_tensors truncation w :=
    (if tokenize_ok then Return (Toy.encode text) else Raise overflow, S w);
  model_generate m ids max_new_tokens num_beams early_stopping w :=
    (if generate_ok then Return [[0%Z; 7%Z; 8%Z; 1%Z]]
     else Raise overflow, S w);
  tokenizer_decode t ids skip_special_tokens w :=
    (Return "Tom tells #Person1# there is time.", S w);
  stdout_write line w := (Return tt, w)
|}.

Definition fresh (tokenize_ok generate_ok : bool)
  : @State (library tokenize_ok generate_ok) :=
  @construct (library tokenize_ok generate_ok) default_model_name 0.

End Faulty.

(** ** A library double with a narrow console

    The library is that of [Toy]; standard output has the ASCII codec and
    raises [UnicodeEncodeError] on a line that holds any other byte, as
    the two lines of [load_model] do. *)

Module Narrow.

Definition is_ascii_text (line : string) : bool :=
  forallb (fun c => Nat.ltb (nat_of_ascii c) 128) (list_ascii_of_string line).

Definition encode_error : exn :=
  PyExc "UnicodeEncodeError"
        "'ascii' codec can't encode character: ordinal not in range(128)".

Definition library (model_ok tokenizer_ok : bool) : Transformers := {|
  World := nat;
  Model := string;
  Tokenizer := string;
  model_from_pretrained name w :=
    (if model_ok then Return ("model:" ++ name)
     else Raise Toy.load_error, S w);
  tokenizer_from_pretrained name use_fast w :=
    (if tokenizer_ok then Return ("tokenizer:" ++ name)
     else Raise Toy.load_error, S w);
  tokenizer_call t text return_tensors truncation w :=
    (Return (Toy.encode text), S w);
  model_generate m ids max_new_tokens num_beams early_stopping w :=
    (Return [[0%Z; 7%Z; 8%Z; 1%Z]; [0%Z; 9%Z; 1%Z]], S w);
  tokenizer_decode t ids skip_special_tokens w :=
    (Return "Tom tells #Person1# there is time.", S w);
  stdout_write line w :=
    (if is_ascii_text line then Return tt else Raise encode_error, w)
|}.

Definition fresh (model_ok tokenizer_ok : bool)
  : @State (library model_ok tokenizer_ok) :=
  @construct (library model_ok tokenizer_ok) default_model_name 0.

End Narrow.

(** ** A library double with a console that fails once

    The library is that of [Toy] with both acquisitions succeeding; the
    world counts the lines written so far, and standard output raises
    [BrokenPipeError] on the first line and takes every later one. *)

Module Hiccup.

Definition broken_pipe : exn := PyExc "BrokenPipeError" "[Errno 32] Broken pipe".

Definition library : Transformers := {|
  World := nat;
  Model := string;
  Tokenizer := string;
  model_from_pretrained name w := (Return ("model:" ++ name), w);
  tokenizer_from_pretrained name use_fast w :=
    (Return ("tokenizer:" ++ name), w);
  tokenizer_call t text return_tensors truncation w :=
    (Return (Toy.encode text), w);
  model_generate m ids max_new_tokens num_beams early_stopping w :=
    (Return [[0%Z; 7%Z; 8%Z; 1%Z]; [0%Z; 9%Z; 1%Z]], w);
  tokenizer_decode t ids skip_special_tokens w :=
    (Return "Tom tells #Person1# there is time.", w);
  stdout_write line w :=
    (match w with O => Raise broken_pipe | S _ => Return tt end, S w)
|}.

End Hiccup.

(** ** [test_setup.py]

    The script prints two lines, then inside a [try] imports [torch] and
    [transformers], prints a line, reads and prints the [__version__] of
    each; on an [ImportError] it prints one line instead. *)

(** What the interpreter offers the script: [import name], the read of a
    module's [__version__], standard output, and the test
    [isinstance(e, ImportError)] that [except ImportError] makes.  The
    imports, the reads and the prints may all raise. *)
Class Interpreter : Type := {
  Env : Type;
  PyModule : Type;
  import_module : string -> Env -> result PyModule * Env;
  module_version : PyModule -> result string;
  console_write : string -> Env -> result unit * Env;
  is_ImportError : exn -> bool
}.

Section Setup.

Context {py : Interpreter}.

(** What the script does that shows outside: a line printed, an import
    tried. *)
Inductive SetupEvent : Type :=
| Printed (line : string)
| Imported (name : string) (r : result PyModule).

(** A step of the script: how it ends, the environment it leaves, what it
    did. *)
Definition Script (A : Type) : Type :=
  Env -> result A * Env * list SetupEvent.

Definition sbind {A B} (c : Script A) (k : A -> Script B) : Script B :=
  fun env =>
    match c env with
    | (Return a, env1, ev1) =>
        let '(r, env2, ev2) := k a env1 in (r, env2, (ev1 ++ ev2)%list)
    | (Raise e, env1, ev1) => (Raise e, env1, ev1)
    end.

(** [print(line)]. *)
Definition sprint (line : string) : Script unit :=
  fun env =>
    match console_write line env with
    | (Return _, env1) => (Return tt, env1, [Printed line])
    | (Raise e, env1) => (Raise e, env1, [])
    end.

(** [import name]. *)
Definition simport (name : string) : Script PyModule :=
  fun env =>
    let '(r, env1) := import_module name env in (r, env1, [Imported name r]).

(** [module.__version__]. *)
Definition sversion (m : PyModule) : Script string :=
  fun env => (module_version m, env, []).

(** [try: body / except ImportError as e: handler e]: an exception of any
    other class goes on to the caller. *)
Definition try_except_ImportError {A} (body : Script A)
           (handler : exn -> Script A) : Script A :=
  fun env =>
    match body env with
    | (Return a, env1, ev1) => (Return a, env1, ev1)
    | (Raise e, env1, ev1) =>
        if is_ImportError e
        then let '(r, env2, ev2) := handler e env1 in
             (r, env2, (ev1 ++ ev2)%list)
        else (Raise e, env1, ev1)
    end.

Declare Scope script_scope.
Notation "x <- c1 ;; c2" := (sbind c1 (fun x => c2))
  (at level 61, c1 at next level, right associativity) : script_scope.
Notation "c1 ;; c2" := (sbind c1 (fun _ => c2))
  (at level 61, right associativity) : script_scope.
Open Scope script_scope.

Definition test_setup : Script unit :=
  sprint "🚀 Project setup successful!" ;;
  sprint "Testing basic imports..." ;;
  try_except_ImportError
    (torch <- simport "torch" ;;
     transformers <- simport "transformers" ;;
     sprint "✅ All imports work correctly!" ;;
     torch_version <- sversion torch ;;
     sprint ("PyTorch version: " ++ torch_version) ;;
     transformers_version <- sversion transformers ;;
     sprint ("Transformers version: " ++ transformers_version))
    (fun e => sprint ("❌ Import error: " ++ str e)).

(** The lines printed, in order. *)
Fixpoint printed (evs : list SetupEvent) : list string :=
  match evs with
  | [] => []
  | Printed line :: rest => line :: printed rest
  | Imported _ _ :: rest => printed rest
  end.

(** The names of the modules whose import was tried, in order. *)
Fixpoint imports (evs : list SetupEvent) : list string :=
  match evs with
  | [] => []
  | Printed _ :: rest => imports rest
  | Imported name _ :: rest => name :: imports rest
  end.

End Setup.

(** An interpreter double: the two imports succeed or raise as the flags
    say, with an exception of the given class; a module has a
    [__version__] or not; the console takes every line. *)
Module ToyPy.

Definition interpreter (torch_ok transformers_ok versioned : bool)
           (cls : string) : Interpreter := {|
  Env := nat;
  PyModule := string;
  import_module name w :=
    (if (name =? "torch") && torch_ok then Return "2.1.0"
     else if (name =? "transformers") && transformers_ok then Return "4.35.0"
     else Raise (PyExc cls ("No module named '" ++ name ++ "'")), S w);
  module_version m :=
    if versioned then Return m
    else Raise (PyExc "AttributeError"
                      "module has no attribute '__version__'");
  console_write line w := (Return tt, w);
  is_ImportError e :=
    match e with
    | PyExc c _ => (c =? "ImportError") || (c =? "ModuleNotFoundError")
    end
|}.

End ToyPy.

(** ** Facts about strings *)

Module StrFacts.

Lemma append_assoc (a b c : string) : (a ++ b) ++ c = a ++ (b ++ c).
Proof.
  induction a as [|x a IH]; simpl; [reflexivity|].
  now rewrite IH.
Qed.

Lemma append_nil_r (a : string) : a ++ "" = a.
Proof.
  induction a as [|x a IH]; simpl; [reflexivity|].
  now rewrite IH.
Qed.

Lemma prefix_nil (s : string) : prefix "" s = true.
Proof. now destruct s. Qed.

(** [prefix] decides "starts with". *)
Lemma prefix_iff (p s : string) :
  prefix p s = true <-> exists post, s = p ++ post.
Proof.
  revert s; induction p as [|a p IH]; intros s; simpl.
  - destruct s; simpl; split; eauto.
  - destruct s as [|b s]; simpl.
    + split; [discriminate|]. intros [post H]; discriminate.
    + destruct (ascii_dec a b) as [->|Hab].
      * rewrite IH. split; intros [post H]; exists post.
        -- now rewrite H.
        -- now inversion H.
      * split; [discriminate|].
        intros [post H]. congruence.
  Qed.

Lemma prefix_append (p s : string) : prefix p (p ++ s) = true.
Proof. apply prefix_iff. now exists s. Qed.

(** [occurrences] counts nothing exactly when there is no occurrence. *)
Lemma occurrences_pos (p s : string) :
  occurrences p s <> 0 <-> substring_of p s.
Proof.
  unfold substring_of.
  induction s as [|c s IH].
  - cbn [occurrences]. destruct (prefix p "") eqn:E.
    + split; [intros _|intros _; lia].
      apply prefix_iff in E. destruct E as [post E].
      exists "", post. exact E.
    + split; [lia|].
      intros (pre & post & H).
      destruct pre; simpl in H; [|discriminate].
      assert (prefix p "" = true) by (apply prefix_iff; eauto).
      congruence.
  - cbn [occurrences].
    destruct (prefix p (String c s)) eqn:E.
    + split; [intros _|intros _; lia].
      apply prefix_iff in E. destruct E as [post E].
      exists "", post. exact E.
    + simpl. rewrite IH. split.
      * intros (pre & post & H). exists (String c pre), post.
        simpl. now rewrite H.
      * intros (pre & post & H). destruct pre as [|x pre].
        -- simpl in H.
           assert (prefix p (String c s) = true)
             by (apply prefix_iff; eauto).
           congruence.
        -- simpl in H. inversion H. eauto.
Qed.

Lemma contains_iff (p s : string) :
  contains p s = true <-> substring_of p s.
Proof.
  unfold contains. rewrite <- occurrences_pos.
  destruct (Nat.eqb_spec (occurrences p s) 0); simpl; split;
    congruence || lia.
Qed.

Lemma contains_false_iff (p s : string) :
  contains p s = false <-> ~ substring_of p s.
Proof.
  rewrite <- contains_iff. destruct (contains p s); split; congruence.
Qed.

(** A disagreement inside [k] rules out a match, whatever follows [k]. *)
Lemma differs_prefix (p k r : string) :
  differs p k = true -> prefix p (k ++ r) = false.
Proof.
  revert k; induction p as [|a p IH]; intros [|b k]; simpl;
    try discriminate.
  destruct (Ascii.eqb_spec a b) as [->|Hab]; intros H.
  - destruct (ascii_dec b b); [now apply IH | reflexivity].
  - destruct (ascii_dec a b); [contradiction | reflexivity].
Qed.

Lemma occurrences_skip (p k r : string) :
  differs_everywhere p k = true ->
  occurrences p (k ++ r) = occurrences p r.
Proof.
  induction k as [|c k IH]; [reflexivity|].
  cbn [differs_everywhere]. intros H.
  apply andb_prop in H. destruct H as [H1 H2].
  change (String c k ++ r) with (String c (k ++ r)).
  cbn [occurrences].
  change (String c (k ++ r)) with (String c k ++ r).
  rewrite (differs_prefix _ _ _ H1). now apply IH.
Qed.

(** A match contains the last character of the pattern. *)
Lemma prefix_mem_last (p x : string) (c : ascii) :
  last p = Some c -> prefix p x = true -> mem c x = true.
Proof.
  revert x; induction p as [|a p IH]; intros x; [easy|].
  destruct x as [|b x]; [easy|]. cbn [prefix].
  destruct (ascii_dec a b) as [->|]; [|easy].
  destruct p as [|a' p].
  - intros H _. inversion H; subst. simpl.
    now rewrite Ascii.eqb_refl.
  - intros H Hp. simpl. rewrite (IH x H Hp). apply orb_true_r.
Qed.

Lemma prefix_append_last (p s t : string) (c : ascii) :
  last p = Some c -> mem c t = false ->
  prefix p (s ++ t) = prefix p s.
Proof.
  intros Hl Ht. revert p Hl; induction s as [|b s IH]; intros p Hl.
  - simpl. destruct (prefix p t) eqn:E.
    + rewrite (prefix_mem_last _ _ _ Hl E) in Ht. discriminate.
    + destruct p; [discriminate | reflexivity].
  - destruct p as [|a p]; [discriminate|]. simpl.
    destruct (ascii_dec a b); [|reflexivity].
    destruct p as [|a' p]; [now rewrite !prefix_nil|].
    now apply IH.
Qed.

(** A tail without the pattern's last character adds no occurrence. *)
Lemma occurrences_append_last (p s t : string) (c : ascii) :
  last p = Some c -> mem c t = false ->
  occurrences p (s ++ t) = occurrences p s.
Proof.
  intros Hl Ht. induction s as [|b s IH].
  - cbn [occurrences append].
    assert (Hp : prefix p "" = false) by (destruct p; easy).
    rewrite Hp. clear Hp. induction t as [|x t IHt].
    + cbn [occurrences]. destruct p; easy.
    + cbn [occurrences].
      simpl in Ht. apply orb_false_elim in Ht. destruct Ht as [Hx Ht].
      destruct (prefix p (String x t)) eqn:E.
      * apply (prefix_mem_last _ _ _ Hl) in E. simpl in E.
        rewrite Hx, Ht in E. discriminate.
      * now apply IHt.
  - cbn [occurrences append].
    change (String b (s ++ t)) with (String b s ++ t).
    rewrite (prefix_append_last _ _ _ _ Hl Ht), IH. reflexivity.
Qed.

(** The pattern, a gap it cannot start in, any text, a tail it cannot
    end in. *)
Lemma occurrences_framed (p p' k x t : string) (a c : ascii) :
  p = String a p' ->
  differs_everywhere p (p' ++ k) = true ->
  last p = Some c ->
  mem c t = false ->
  occurrences p (p ++ k ++ x ++ t) = 1 + occurrences p x.
Proof.
  intros Hp Hk Hl Ht.
  assert (H0 : prefix p (p ++ k ++ x ++ t) = true)
    by apply prefix_append.
  rewrite Hp in H0 |- * at 2. cbn [append occurrences] in *.
  rewrite <- Hp in *. rewrite H0.
  rewrite <- append_assoc.
  rewrite (occurrences_skip _ _ _ Hk).
  now rewrite (occurrences_append_last _ _ _ _ Hl Ht).
Qed.

End StrFacts.

(** ** The prompt builder *)

Section PromptBuilder.

Variables Model Tokenizer : Type.

Abbreviation Obj := (DialogueSummarizer Model Tokenizer).

(** C6.  The prompt builder is a function from two strings to a string:
    defined for every dialogue and every method (the empty string and
    unrecognised methods included), without any effect on the object or
    the world; its result does not depend on the state of the object it
    is called on, and contains the dialogue as a substring. *)
Theorem create_prompt_pure_total (self self' : Obj) (dialogue method : string) :
  substring_of dialogue (_create_prompt self dialogue method) /\
  _create_prompt self' dialogue method = _create_prompt self dialogue method.
Proof.
  split; [|reflexivity].
  unfold _create_prompt, substring_of.
  destruct (method =? "zero-shot").
  { exists ("Summarize the following conversation:" ++ LF ++ LF),
           (LF ++ LF ++ "Summary:"). reflexivity. }
  destruct (method =? "one-shot").
  { exists (_get_one_shot_example self ++ LF ++ LF ++ "Dialogue:" ++ LF),
           (LF ++ LF ++ "Summary:"). reflexivity. }
  destruct (method =? "few-shot").
  { exists (_get_few_shot_examples self ++ LF ++ LF ++ "Dialogue:" ++ LF),
           (LF ++ LF ++ "Summary:"). reflexivity. }
  exists "Summarize this dialogue: ", "".
  now rewrite StrFacts.append_nil_r.
Qed.

(** C7.  For method "zero-shot" the prompt is the instruction line, a
    blank line, the dialogue, a blank line and "Summary:"; for the
    dialogue "X" it is the five-line text below. *)
Theorem zero_shot_prompt (self : Obj) (d : string) :
  _create_prompt self d "zero-shot" =
    "Summarize the following conversation:" ++ LF ++ LF ++ d
      ++ LF ++ LF ++ "Summary:" /\
  _create_prompt self "X" "zero-shot" =
"Summarize the following conversation:

X

Summary:".
Proof. split; reflexivity. Qed.

(** C8, as the code has it.  For method "one-shot" the prompt is the
    Tom/watch example followed by a blank line, "Dialogue:", the dialogue,
    a blank line and "Summary:", and so ends with that suffix.  The
    example starts at position 0 and, besides, exactly where it starts
    in "Dialogue:" + newline + dialogue: the prompt holds one occurrence
    more than that text. *)
Theorem one_shot_prompt (self : Obj) (d : string) :
  _create_prompt self d "one-shot" =
    _get_one_shot_example self ++ LF ++ LF ++ "Dialogue:" ++ LF ++ d
      ++ LF ++ LF ++ "Summary:" /\
  ends_with (_create_prompt self d "one-shot")
            (LF ++ LF ++ "Dialogue:" ++ LF ++ d ++ LF ++ LF ++ "Summary:") /\
  occurrences (_get_one_shot_example self)
              (_create_prompt self d "one-shot") =
    1 + occurrences (_get_one_shot_example self) ("Dialogue:" ++ LF ++ d).
Proof.
  split; [reflexivity|]. split.
  { exists (_get_one_shot_example self). reflexivity. }
  change (_create_prompt self d "one-shot")
    with (_get_one_shot_example self ++ (LF ++ LF)
            ++ ("Dialogue:" ++ LF ++ d) ++ (LF ++ LF ++ "Summary:")).
  eapply StrFacts.occurrences_framed with (c := "."%char);
    [reflexivity | vm_compute; reflexivity | reflexivity | reflexivity].
Qed.

(** C9.  For method "few-shot" the prompt is the Tom/watch example, a
    blank line, the May/picnic example, then a blank line, "Dialogue:",
    the dialogue, a blank line and "Summary:": it is the text below with
    the dialogue put in, and the two examples are the same for every
    dialogue. *)
Theorem few_shot_prompt (self : Obj) (d : string) :
  _create_prompt self d "few-shot" =
"Dialogue:
#Person1#: What time is it, Tom?
#Person2#: Just a minute. It's ten to nine by my watch.
#Person1#: Is it? I had no idea it was so late. I must be off now.
#Person2#: What's the hurry?
#Person1#: I must catch the nine-thirty train.
#Person2#: You've plenty of time yet. The railway station is very close.

Summary: #Person1# is in a hurry to catch a train. Tom tells #Person1# there is plenty of time.

Dialogue:
#Person1#: May, do you mind helping me prepare for the picnic?
#Person2#: Sure. Have you checked the weather report?
#Person1#: Yes. It says it will be sunny all day.

Summary: Mom asks May to help prepare for the picnic and May agrees.

Dialogue:
" ++ d ++ "

Summary:" /\
  _create_prompt self d "few-shot" =
    _get_one_shot_example self ++ LF ++ LF ++ picnic_example
      ++ LF ++ LF ++ "Dialogue:" ++ LF ++ d ++ LF ++ LF ++ "Summary:" /\
  _get_few_shot_examples self =
    _get_one_shot_example self ++ LF ++ LF ++ picnic_example /\
  substring_of "What time is it, Tom?" (_get_one_shot_example self) /\
  substring_of "by my watch." (_get_one_shot_example self) /\
  substring_of "May, do you mind helping me prepare for the picnic?"
               picnic_example.
Proof.
  split; [reflexivity|]. split; [reflexivity|]. split; [reflexivity|].
  split; [|split]; apply StrFacts.contains_iff; vm_compute; reflexivity.
Qed.

(** C10.  For every method other than exactly "zero-shot", "one-shot"
    and "few-shot" (compared as strings, case included) the prompt is
    "Summarize this dialogue: " followed by the dialogue. *)
Theorem fallback_prompt (self : Obj) (d method : string) :
  method <> "zero-shot" ->
  method <> "one-shot" ->
  method <> "few-shot" ->
  _create_prompt self d method = "Summarize this dialogue: " ++ d.
Proof.
  intros H0 H1 H2. unfold _create_prompt.
  apply String.eqb_neq in H0, H1, H2. now rewrite H0, H1, H2.
Qed.

End PromptBuilder.

(** ** Loading and summarizing *)

(** Case analysis on everything a run of the program branches on: the
    attributes it reads and the results the library gives back. *)
Ltac crack_step :=
  match goal with
  | |- context [model_from_pretrained ?a ?w] =>
      destruct (model_from_pretrained a w) as [[?|?] ?]
  | |- context [tokenizer_from_pretrained ?a ?b ?w] =>
      destruct (tokenizer_from_pretrained a b w) as [[?|?] ?]
  | |- context [tokenizer_call ?t ?a ?b ?c ?w] =>
      destruct (tokenizer_call t a b c w) as [[?|?] ?]
  | |- context [model_generate ?m ?a ?b ?c ?d ?w] =>
      destruct (model_generate m a b c d w) as [[?|?] ?]
  | |- context [tokenizer_decode ?t ?a ?b ?w] =>
      destruct (tokenizer_decode t a b w) as [[?|?] ?]
  | |- context [stdout_write ?a ?w] =>
      destruct (stdout_write a w) as [[?|?] ?]
  | |- context [match ?x with _ => _ end] => is_var x; destruct x
  end.

Ltac crack := repeat (cbn; crack_step); cbn.

(** Membership in an explicit list, and goals built from such facts. *)
Ltac pick := repeat (first [left; reflexivity | right]).

Ltac settle :=
  cbn;
  repeat match goal with
         | |- _ /\ _ => split
         | |- exists _, _ => eexists
         | |- _ \/ _ => solve [pick]
         | |- _ = _ => reflexivity
         end.

Ltac unfold_monad :=
  unfold bind, ret, raise, try_except, with_no_grad, extern, assign, get,
    print, emit, first_row.

Section Summarizer.

Context {lib : Transformers}.

(** [load_model], spelled out along the two acquisitions and the two
    prints; [failed] is the [except] clause entered with the exception,
    the object, the world and the events so far. *)
Lemma load_model_cases (s : State) :
  load_model s =
    let name := model_name (self s) in
    let failed (e : exn) (o : Self) (w : World) (evs : list Event) :=
      match stdout_write ("❌ Error loading model: " ++ str e) w with
      | (Return _, w') =>
          (Return tt, mkState (with_is_loaded false o) w',
           (evs ++ [Ev_print ("❌ Error loading model: " ++ str e)])%list)
      | (Raise e', w') =>
          (Raise e', mkState o w',
           (evs ++ [Ev_print_raised ("❌ Error loading model: " ++ str e)
                                    e'])%list)
      end in
    match model_from_pretrained name (world s) with
    | (Raise e, w1) =>
        failed e (self s) w1
               [Call_load_model; Ev_model_from_pretrained name (Raise e)]
    | (Return m, w1) =>
        match tokenizer_from_pretrained name true w1 with
        | (Raise e, w2) =>
            failed e (with_model (Some m) (self s)) w2
                   [Call_load_model;
                    Ev_model_from_pretrained name (Return m);
                    Ev_tokenizer_from_pretrained name true (Raise e)]
        | (Return t, w2) =>
            match stdout_write
                    ("✅ Model " ++ name ++ " loaded successfully!") w2 with
            | (Return _, w3) =>
                (Return tt,
                 mkState (with_is_loaded true
                            (with_tokenizer (Some t)
                               (with_model (Some m) (self s)))) w3,
                 [Call_load_model;
                  Ev_model_from_pretrained name (Return m);
                  Ev_tokenizer_from_pretrained name true (Return t);
                  Ev_print ("✅ Model " ++ name ++ " loaded successfully!")])
            | (Raise e, w3) =>
                failed e
                       (with_is_loaded true
                          (with_tokenizer (Some t)
                             (with_model (Some m) (self s)))) w3
                       [Call_load_model;
                        Ev_model_from_pretrained name (Return m);
                        Ev_tokenizer_from_pretrained name true (Return t);
                        Ev_print_raised
                          ("✅ Model " ++ name ++ " loaded successfully!") e]
            end
        end
    end.
Proof.
  destruct s as [[name mdl tok loaded] w].
  unfold load_model, bind, try_except, extern, assign, get, print, emit.
  cbn.
  destruct (model_from_pretrained name w) as [[m|e] w1]; cbn.
  - destruct (tokenizer_from_pretrained name true w1) as [[t|e] w2]; cbn.
    + destruct (stdout_write _ w2) as [[u|e] w3]; cbn; [reflexivity|].
      destruct (stdout_write _ w3) as [[u|e'] w4]; reflexivity.
    + destruct (stdout_write _ w2) as [[u|e'] w3]; reflexivity.
  - destruct (stdout_write _ w1) as [[u|e'] w2]; reflexivity.
Qed.

(** C2, as the code has it.  When the model acquisition raises, or the
    tokenizer acquisition after it, and the diagnostic line is then
    written to standard output, [load_model] has caught the exception,
    printed that one line with its text, set [is_loaded] to false and
    returns normally.  When both acquisitions succeed and the success
    line is written, it returns with [is_loaded] true. *)
Theorem load_model_catches (s : State) :
  (forall e w1 w2,
      model_from_pretrained (model_name (self s)) (world s)
        = (Raise e, w1) ->
      stdout_write ("❌ Error loading model: " ++ str e) w1
        = (Return tt, w2) ->
      exists s',
        load_model s =
          (Return tt, s',
           [Call_load_model;
            Ev_model_from_pretrained (model_name (self s)) (Raise e);
            Ev_print ("❌ Error loading model: " ++ str e)]) /\
        is_loaded (self s') = false) /\
  (forall m w1 e w2 w3,
      model_from_pretrained (model_name (self s)) (world s)
        = (Return m, w1) ->
      tokenizer_from_pretrained (model_name (self s)) true w1
        = (Raise e, w2) ->
      stdout_write ("❌ Error loading model: " ++ str e) w2
        = (Return tt, w3) ->
      exists s',
        load_model s =
          (Return tt, s',
           [Call_load_model;
            Ev_model_from_pretrained (model_name (self s)) (Return m);
            Ev_tokenizer_from_pretrained (model_name (self s)) true
                                         (Raise e);
            Ev_print ("❌ Error loading model: " ++ str e)]) /\
        is_loaded (self s') = false) /\
  (forall m w1 t w2 w3,
      model_from_pretrained (model_name (self s)) (world s)
        = (Return m, w1) ->
      tokenizer_from_pretrained (model_name (self s)) true w1
        = (Return t, w2) ->
      stdout_write
        ("✅ Model " ++ model_name (self s) ++ " loaded successfully!") w2
        = (Return tt, w3) ->
      exists s' evs,
        load_model s = (Return tt, s', evs) /\
        count is_print evs = 1 /\
        count is_print_raised evs = 0 /\
        is_loaded (self s') = true).
Proof.
  rewrite load_model_cases. cbv zeta.
  split; [|split].
  - intros e w1 w2 -> ->. eauto.
  - intros m w1 e w2 w3 -> -> ->. eauto.
  - intros m w1 t w2 w3 -> -> ->. eauto 6.
Qed.

(** C3, as the code has it.  On an object that is not loaded and has no
    tokenizer, in a world where the acquisition fails, when [load_model]
    returns (its diagnostic line was written), [summarize] goes on past
    the load step and raises the [TypeError] of calling [None] at the
    tokenizer call: nothing but the load attempt happened, nothing is
    returned, the object is left unloaded. *)
Theorem summarize_unloaded_fails (s : State) (d m : string) (n : Z) :
  is_loaded (self s) = false ->
  tokenizer (self s) = None ->
  acquisition_fails (model_name (self s)) (world s) ->
  fst (fst (load_model s)) = Return tt ->
  exists s' evs,
    load_model s = (Return tt, s', evs) /\
    summarize d m n s = (Raise NoneType_not_callable, s', evs) /\
    count is_generate evs = 0 /\
    is_loaded (self s') = false /\
    tokenizer (self s') = None.
Proof.
  intros Hl Ht Hf.
  destruct s as [[name mdl tok loaded] w]. cbn in Hl, Ht, Hf.
  subst tok loaded.
  unfold summarize. unfold_monad. cbn -[load_model].
  rewrite load_model_cases. cbv zeta. cbn [self world model_name].
  destruct Hf as [(e & w1 & ->) | (m0 & w1 & e & w2 & -> & ->)];
    cbn; destruct (stdout_write _ _) as [[u|e'] w']; cbn;
    intros H; try discriminate H; eauto 10.
Qed.

(** C4.  A call of [summarize] on an object whose [is_loaded] is false
    calls [load_model] once, before anything else crosses the library
    boundary; on an object whose [is_loaded] is true it does not call
    it. *)
Theorem summarize_loads_once (s : State) (d m : string) (n : Z) :
  if is_loaded (self s)
  then count is_call_load_model (snd (summarize d m n s)) = 0
  else exists rest,
      snd (summarize d m n s) = Call_load_model :: rest /\
      count is_call_load_model rest = 0.
Proof.
  destruct s as [[name mdl tok loaded] w].
  unfold summarize. unfold_monad.
  destruct loaded; cbn -[load_model].
  - crack; reflexivity.
  - rewrite load_model_cases.
    crack; eexists; (split; [reflexivity|reflexivity]).
Qed.


(** *** The handles along any use of the object *)

(** One operation keeps the object consistent and sets a handle exactly
    when it acquired one. *)
Lemma perform_handles (op : Op) (s s' : State) (evs : list Event) :
  perform op s = (s', evs) ->
  (consistent (self s) = true -> consistent (self s') = true) /\
  is_set (model (self s')) =
    is_set (model (self s)) || existsb is_model_acquired evs /\
  is_set (tokenizer (self s')) =
    is_set (tokenizer (self s)) || existsb is_tokenizer_acquired evs.
Proof.
  destruct s as [[name mdl0 tok loaded] w].
  destruct op as [|d m n]; unfold perform.
  - rewrite load_model_cases. unfold consistent.
    crack; intros [= <- <-];
      try destruct mdl0; try destruct tok; try destruct loaded;
      cbn; auto.
  - unfold summarize. unfold_monad. unfold consistent.
    destruct loaded; cbn -[load_model];
      [|rewrite load_model_cases];
      crack; intros [= <- <-];
      try destruct mdl0; try destruct tok;
      cbn; auto.
Qed.

Lemma run_handles (ops : list Op) (s s' : State) (evs : list Event) :
  run ops s = (s', evs) ->
  (consistent (self s) = true -> consistent (self s') = true) /\
  is_set (model (self s')) =
    is_set (model (self s)) || existsb is_model_acquired evs /\
  is_set (tokenizer (self s')) =
    is_set (tokenizer (self s)) || existsb is_tokenizer_acquired evs.
Proof.
  revert s s' evs; induction ops as [|op ops IH]; intros s s' evs; cbn.
  - intros [= <- <-]. cbn. rewrite !orb_false_r. auto.
  - destruct (perform op s) as [s1 ev1] eqn:E1.
    destruct (run ops s1) as [s2 ev2] eqn:E2.
    intros [= <- <-].
    destruct (perform_handles _ _ _ _ E1) as (H1 & H2 & H3).
    destruct (IH _ _ _ E2) as (H4 & H5 & H6).
    rewrite !existsb_app, H5, H6, H2, H3, !orb_assoc. auto.
Qed.

(** Running a sequence of operations is running its parts in turn, so a
    statement about the state after every sequence is one about the
    state after every step. *)
Lemma run_app (ops1 ops2 : list Op) (s : State) :
  run (ops1 ++ ops2)%list s =
    let '(s1, ev1) := run ops1 s in
    let '(s2, ev2) := run ops2 s1 in
    (s2, (ev1 ++ ev2)%list).
Proof.
  revert s; induction ops1 as [|op ops1 IH]; intros s; cbn.
  - now destruct (run ops2 s).
  - destruct (perform op s) as [s1 ev1]. rewrite IH.
    destruct (run ops1 s1) as [s2 ev2].
    destruct (run ops2 s2) as [s3 ev3].
    now rewrite app_assoc.
Qed.

(** C1, as the code has it.  After every sequence of [load_model] and
    [summarize] calls on a newly constructed object: the model is set
    exactly when some model acquisition has returned so far, the tokenizer
    exactly when some tokenizer acquisition has returned so far; the
    tokenizer is never set without the model; an object whose [is_loaded]
    is true has both; and the two handles are both unset or both set
    except exactly when a model acquisition has returned and no tokenizer
    acquisition has returned yet, when the model is set alone. *)
Theorem handles_invariant (name : string) (w : World) (ops : list Op) :
  let s := fst (run ops (construct name w)) in
  let evs := snd (run ops (construct name w)) in
  is_set (model (self s)) = existsb is_model_acquired evs /\
  is_set (tokenizer (self s)) = existsb is_tokenizer_acquired evs /\
  (is_set (tokenizer (self s)) = true -> is_set (model (self s)) = true) /\
  (is_loaded (self s) = true ->
   is_set (model (self s)) = true /\ is_set (tokenizer (self s)) = true) /\
  paired (self s) =
    negb (existsb is_model_acquired evs &&
          negb (existsb is_tokenizer_acquired evs)).
Proof.
  destruct (run ops (construct name w)) as [s evs] eqn:E. cbn [fst snd].
  destruct (run_handles _ _ _ _ E) as (H1 & Hm & Ht).
  specialize (H1 eq_refl). cbn in Hm, Ht.
  unfold consistent in H1.
  apply andb_prop in H1. destruct H1 as [Ha Hb].
  rewrite <- Hm, <- Ht. unfold paired.
  destruct (model (self s)), (tokenizer (self s)), (is_loaded (self s));
    cbn in *; try discriminate; repeat split; auto.
Qed.

End Summarizer.

(** "invalid", "Zero-Shot" and the empty method all fall through. *)
Example fallback_examples :
  _create_prompt Toy.object "X" "invalid" = "Summarize this dialogue: X" /\
  _create_prompt Toy.object "X" "Zero-Shot" = "Summarize this dialogue: X" /\
  _create_prompt Toy.object "X" "" = "Summarize this dialogue: X".
Proof. repeat split. Qed.

(** C8, as the spec words it, fails: the dialogue made of the Tom/watch
    example from its second line on does not contain the example, yet the
    one-shot prompt built from it holds the example twice. *)
Lemma one_shot_two_occurrences :
  ~ substring_of (_get_one_shot_example Toy.object) Toy.headless_example /\
  occurrences (_get_one_shot_example Toy.object)
              (_create_prompt Toy.object Toy.headless_example "one-shot") = 2.
Proof.
  split.
  - apply StrFacts.contains_false_iff. vm_compute. reflexivity.
  - vm_compute. reflexivity.
Qed.

Lemma fallback_prompt_witness :
  "invalid" <> "zero-shot" /\ "invalid" <> "one-shot" /\
  "invalid" <> "few-shot" /\
  _create_prompt Toy.object "X" "invalid" = "Summarize this dialogue: X".
Proof.
  assert (H0 : "invalid" <> "zero-shot") by discriminate.
  assert (H1 : "invalid" <> "one-shot") by discriminate.
  assert (H2 : "invalid" <> "few-shot") by discriminate.
  refine (conj H0 (conj H1 (conj H2 _))).
  exact (fallback_prompt string string Toy.object "X" "invalid" H0 H1 H2).
Defined.

(** ** The theorems at work on the library double *)

(** C1, as the spec words it, fails: when the model is acquired and the
    tokenizer acquisition raises, one [load_model] call on a new object
    leaves the model set and the tokenizer unset. *)
Lemma partial_load_unpairs :
  model (self (fst (@run (Toy.library true false) [Op_load_model]
                         (Toy.fresh true false))))
    = Some "model:google/flan-t5-base" /\
  tokenizer (self (fst (@run (Toy.library true false) [Op_load_model]
                             (Toy.fresh true false))))
    = None /\
  paired (self (fst (@run (Toy.library true false) [Op_load_model]
                          (Toy.fresh true false))))
    = false.
Proof. repeat split. Qed.

Lemma handles_invariant_witness :
  is_loaded
    (self (fst (@run (Toy.library true true)
                     [Op_summarize "X" "few-shot" 50; Op_load_model]
                     (Toy.fresh true true)))) = true /\
  is_set (model
    (self (fst (@run (Toy.library true true)
                     [Op_summarize "X" "few-shot" 50; Op_load_model]
                     (Toy.fresh true true))))) = true /\
  is_set (tokenizer
    (self (fst (@run (Toy.library true true)
                     [Op_summarize "X" "few-shot" 50; Op_load_model]
                     (Toy.fresh true true))))) = true.
Proof.
  refine (conj eq_refl _).
  exact (proj1 (proj2 (proj2 (proj2
           (@handles_invariant (Toy.library true true) default_model_name
              0%nat [Op_summarize "X" "few-shot" 50; Op_load_model]))))
           eq_refl).
Defined.

(** C2, as the spec words it, fails: on a console that cannot encode the
    diagnostic line, [load_model] with a failing acquisition does not
    return; it raises the [UnicodeEncodeError] of the print and no line
    is printed. *)
Lemma load_model_raises_on_narrow_console :
  fst (fst (@load_model (Narrow.library false true)
                        (Narrow.fresh false true)))
    = Raise Narrow.encode_error /\
  count is_print
        (snd (@load_model (Narrow.library false true)
                          (Narrow.fresh false true))) = 0.
Proof. split; reflexivity. Qed.

Lemma load_model_catches_witness :
  (exists s',
      @load_model (Toy.library false true) (Toy.fresh false true) =
        (Return tt, s',
         [Call_load_model;
          Ev_model_from_pretrained (lib := Toy.library false true)
            default_model_name (Raise Toy.load_error);
          Ev_print "❌ Error loading model: not a valid model identifier"]) /\
      is_loaded (self s') = false) /\
  (exists s',
      @load_model (Toy.library true false) (Toy.fresh true false) =
        (Return tt, s',
         [Call_load_model;
          Ev_model_from_pretrained (lib := Toy.library true false)
            default_model_name (Return "model:google/flan-t5-base");
          Ev_tokenizer_from_pretrained (lib := Toy.library true false)
            default_model_name true (Raise Toy.load_error);
          Ev_print "❌ Error loading model: not a valid model identifier"]) /\
      is_loaded (self s') = false) /\
  (exists s' evs,
      @load_model (Toy.library true true) (Toy.fresh true true) =
        (Return tt, s', evs) /\
      count is_print evs = 1 /\
      count is_print_raised evs = 0 /\
      is_loaded (self s') = true).
Proof.
  split; [|split].
  - exact (proj1
             (@load_model_catches (Toy.library false true)
                                  (Toy.fresh false true))
             Toy.load_error 1%nat 1%nat eq_refl eq_refl).
  - exact (proj1 (proj2
             (@load_model_catches (Toy.library true false)
                                  (Toy.fresh true false)))
             "model:google/flan-t5-base" 1%nat Toy.load_error 2%nat 2%nat
             eq_refl eq_refl eq_refl).
  - exact (proj2 (proj2
             (@load_model_catches (Toy.library true true)
                                  (Toy.fresh true true)))
             "model:google/flan-t5-base" 1%nat
             "tokenizer:google/flan-t5-base" 2%nat 2%nat
             eq_refl eq_refl eq_refl).
Defined.

(** C3, as the spec words it, fails: on a console that cannot encode the
    diagnostic line, [summarize] on an unloaded object without handles,
    with a failing acquisition, does not get past the load step; it ends
    with the [UnicodeEncodeError] raised inside [load_model], not with
    the [TypeError] of the tokenizer call. *)
Lemma summarize_stops_at_load_on_narrow_console :
  is_loaded (self (Narrow.fresh false true)) = false /\
  model (self (Narrow.fresh false true)) = None /\
  tokenizer (self (Narrow.fresh false true)) = None /\
  fst (fst (@summarize (Narrow.library false true) "X" "few-shot" 50
                       (Narrow.fresh false true)))
    = Raise Narrow.encode_error /\
  snd (@summarize (Narrow.library false true) "X" "few-shot" 50
                  (Narrow.fresh false true))
    = snd (@load_model (Narrow.library false true)
                       (Narrow.fresh false true)).
Proof. repeat split. Qed.

Lemma summarize_unloaded_fails_witness :
  exists s' evs,
    @load_model (Toy.library false false) (Toy.fresh false false)
      = (Return tt, s', evs) /\
    @summarize (Toy.library false false) "X" "few-shot" 50
               (Toy.fresh false false)
      = (Raise NoneType_not_callable, s', evs) /\
    count is_generate evs = 0 /\
    is_loaded (self s') = false /\
    tokenizer (self s') = None.
Proof.
  refine (@summarize_unloaded_fails (Toy.library false false)
            (Toy.fresh false false) "X" "few-shot" 50 eq_refl eq_refl
            _ eq_refl).
  left. exists Toy.load_error, 1%nat. reflexivity.
Defined.

(** The same call when only the tokenizer acquisition raises. *)
Example summarize_after_partial_load :
  fst (fst (@summarize (Toy.library true false) "X" "few-shot" 50
                       (Toy.fresh true false)))
    = Raise NoneType_not_callable.
Proof. reflexivity. Qed.

Example summarize_loads_once_fresh :
  count is_call_load_model
        (snd (@summarize (Toy.library true true) "X" "few-shot" 50
                         (Toy.fresh true true))) = 1.
Proof. reflexivity. Qed.



(** ** More about the prompt builder *)

Module StrMore.

Lemma length_append (a b : string) :
  String.length (a ++ b) = String.length a + String.length b.
Proof.
  induction a as [|x a IH]; cbn; [reflexivity|]. now rewrite IH.
Qed.

Lemma append_inj_l (p a b : string) : p ++ a = p ++ b -> a = b.
Proof.
  induction p as [|x p IH]; cbn; [easy|].
  intros [= H]. now apply IH.
Qed.

Lemma append_inj_r (t a b : string) : a ++ t = b ++ t -> a = b.
Proof.
  revert b; induction a as [|x a IH]; intros [|y b] H.
  - reflexivity.
  - apply (f_equal String.length) in H. cbn in H.
    rewrite length_append in H. lia.
  - apply (f_equal String.length) in H. cbn in H.
    rewrite length_append in H. lia.
  - cbn in H. injection H as -> H. f_equal. now apply IH.
Qed.

End StrMore.

Section PromptBuilderMore.

Variables Model Tokenizer : Type.

Abbreviation Obj' := (DialogueSummarizer Model Tokenizer).

Lemma prompt_length (self : Obj') (d method : string) :
  String.length (_create_prompt self d method) =
    String.length d +
    (if method =? "zero-shot" then 49
     else if method =? "one-shot" then 433
     else if method =? "few-shot" then 681
     else 25).
Proof.
  unfold _create_prompt.
  destruct (method =? "zero-shot");
    [|destruct (method =? "one-shot");
      [|destruct (method =? "few-shot")]];
    repeat rewrite StrMore.length_append;
    cbn [String.length Nat.add];
    try change (String.length (_get_one_shot_example self)) with 411;
    try change (String.length (_get_few_shot_examples self)) with 659;
    change (String.length LF) with 1; lia.
Qed.

(** The prompt is as long as the dialogue plus what the template adds:
    49 characters for "zero-shot", 433 for "one-shot", 681 for "few-shot",
    25 for any other method. *)
Theorem create_prompt_length (self : Obj') (d method : string) :
  String.length (_create_prompt self d method) =
    String.length d +
    (if method =? "zero-shot" then 49
     else if method =? "one-shot" then 433
     else if method =? "few-shot" then 681
     else 25).
Proof. apply prompt_length. Qed.

(** For a fixed method the prompt determines the dialogue: two dialogues
    with the same prompt are the same dialogue. *)
Theorem create_prompt_injective (self : Obj') (d1 d2 method : string) :
  _create_prompt self d1 method = _create_prompt self d2 method ->
  d1 = d2.
Proof.
  unfold _create_prompt.
  destruct (method =? "zero-shot");
    [|destruct (method =? "one-shot");
      [|destruct (method =? "few-shot")]];
    intros H; repeat apply StrMore.append_inj_l in H;
    try apply StrMore.append_inj_r in H; exact H.
Qed.

(** The template a method selects shows in the prompt: two methods that
    give the same prompt for one dialogue give the same prompt for every
    dialogue. *)
Theorem create_prompt_method_visible (self : Obj') (d m1 m2 : string) :
  _create_prompt self d m1 = _create_prompt self d m2 ->
  forall d', _create_prompt self d' m1 = _create_prompt self d' m2.
Proof.
  intros H d'.
  apply (f_equal String.length) in H.
  rewrite !prompt_length in H.
  unfold _create_prompt.
  destruct (m1 =? "zero-shot");
    [|destruct (m1 =? "one-shot");
      [|destruct (m1 =? "few-shot")]];
    (destruct (m2 =? "zero-shot");
     [|destruct (m2 =? "one-shot");
       [|destruct (m2 =? "few-shot")]]);
    first [reflexivity | exfalso; lia].
Qed.

(** In the few-shot prompt each of the two examples starts once in the
    examples part and, besides, exactly where it starts in
    "Dialogue:" + newline + dialogue. *)
Theorem few_shot_occurrences (self : Obj') (d : string) :
  occurrences (_get_one_shot_example self)
              (_create_prompt self d "few-shot") =
    1 + occurrences (_get_one_shot_example self) ("Dialogue:" ++ LF ++ d) /\
  occurrences picnic_example (_create_prompt self d "few-shot") =
    1 + occurrences picnic_example ("Dialogue:" ++ LF ++ d).
Proof.
  split.
  - change (_create_prompt self d "few-shot")
      with (_get_one_shot_example self
              ++ (LF ++ LF ++ picnic_example ++ LF ++ LF)
              ++ ("Dialogue:" ++ LF ++ d) ++ (LF ++ LF ++ "Summary:")).
    eapply StrFacts.occurrences_framed with (c := "."%char);
      [reflexivity | vm_compute; reflexivity | reflexivity | reflexivity].
  - change (_create_prompt self d "few-shot")
      with ((_get_one_shot_example self ++ LF ++ LF)
              ++ (picnic_example ++ (LF ++ LF)
                    ++ ("Dialogue:" ++ LF ++ d)
                    ++ (LF ++ LF ++ "Summary:"))).
    rewrite StrFacts.occurrences_skip by (vm_compute; reflexivity).
    eapply StrFacts.occurrences_framed with (c := "."%char);
      [reflexivity | vm_compute; reflexivity | reflexivity | reflexivity].
Qed.

End PromptBuilderMore.

Lemma create_prompt_injective_witness :
  _create_prompt Toy.object "X" "one-shot"
    = _create_prompt Toy.object "X" "one-shot" /\
  "X" = "X".
Proof.
  refine (conj eq_refl _).
  exact (create_prompt_injective string string Toy.object "X" "X" "one-shot"
           eq_refl).
Defined.

Lemma create_prompt_method_visible_witness :
  _create_prompt Toy.object "X" "invalid"
    = _create_prompt Toy.object "X" "" /\
  _create_prompt Toy.object "Y" "invalid" = _create_prompt Toy.object "Y" "".
Proof.
  refine (conj eq_refl _).
  exact (create_prompt_method_visible string string Toy.object
           "X" "invalid" "" eq_refl "Y").
Defined.

(** ** More about loading and summarizing *)

(** A list of events split around three given ones. *)
Ltac bracket :=
  first [ exists []; eexists; reflexivity
        | refine (ex_intro _ [_] _); eexists; reflexivity
        | refine (ex_intro _ [_; _] _); eexists; reflexivity
        | refine (ex_intro _ [_; _; _] _); eexists; reflexivity
        | refine (ex_intro _ [_; _; _; _] _); eexists; reflexivity
        | refine (ex_intro _ [_; _; _; _; _] _); eexists; reflexivity
        | refine (ex_intro _ [_; _; _; _; _; _] _); eexists; reflexivity ].

Ltac splits := repeat match goal with |- _ /\ _ => split end.

Section SummarizerMore.

Context {lib : Transformers}.

Lemma count_app (f : Event -> bool) (l1 l2 : list Event) :
  count f (l1 ++ l2)%list = count f l1 + count f l2.
Proof. unfold count. now rewrite filter_app, length_app. Qed.

(** [summarize] on a loaded object: the object is left as it was and the
    library is asked for no handle. *)
Lemma summarize_loaded (s : State) (d m : string) (n : Z) :
  is_loaded (self s) = true ->
  self (snd (fst (summarize d m n s))) = self s /\
  count is_call_load_model (snd (summarize d m n s)) = 0 /\
  count is_acquisition (snd (summarize d m n s)) = 0 /\
  count is_print (snd (summarize d m n s)) = 0.
Proof.
  destruct s as [[name mdl0 tok loaded] w]. cbn [self is_loaded].
  intros ->. unfold summarize. unfold_monad. cbn -[load_model].
  crack; splits; reflexivity.
Qed.

(** A call of [summarize] on an object whose [is_loaded] is true changes
    no attribute of the object, acquires nothing and prints nothing. *)
Theorem summarize_loaded_frame (s : State) (d m : string) (n : Z) :
  is_loaded (self s) = true ->
  self (snd (fst (summarize d m n s))) = self s /\
  count is_call_load_model (snd (summarize d m n s)) = 0 /\
  count is_acquisition (snd (summarize d m n s)) = 0 /\
  count is_print (snd (summarize d m n s)) = 0.
Proof. apply summarize_loaded. Qed.


(** How [load_model] leaves the handles.  It never clears one: after
    the call each handle is the one the object had before or one acquired
    during the call, and the model name is unchanged.  When the call
    returns with [is_loaded] true, both handles are the ones just
    acquired.  When no [print] raised and the call ends with [is_loaded]
    false, the tokenizer is the one the object had before. *)
Theorem load_model_result_handles (s s' : State) (r : result unit)
        (evs : list Event) :
  load_model s = (r, s', evs) ->
  model_name (self s') = model_name (self s) /\
  (model (self s') = model (self s) \/
   exists mdl,
     model (self s') = Some mdl /\
     In (Ev_model_from_pretrained (model_name (self s)) (Return mdl)) evs) /\
  (tokenizer (self s') = tokenizer (self s) \/
   exists t,
     tokenizer (self s') = Some t /\
     In (Ev_tokenizer_from_pretrained (model_name (self s)) true (Return t))
        evs) /\
  (r = Return tt ->
   is_loaded (self s') = true ->
   exists mdl t,
     model (self s') = Some mdl /\ tokenizer (self s') = Some t /\
     In (Ev_model_from_pretrained (model_name (self s)) (Return mdl)) evs /\
     In (Ev_tokenizer_from_pretrained (model_name (self s)) true (Return t))
        evs) /\
  (count is_print_raised evs = 0 ->
   is_loaded (self s') = false ->
   tokenizer (self s') = tokenizer (self s)).
Proof.
  rewrite load_model_cases.
  destruct s as [[name mdl0 tok loaded] w].
  crack; intros [= <- <- <-]; cbn; splits;
    try reflexivity;
    try (left; reflexivity);
    try (right; eexists; split; [reflexivity | pick]);
    try (intros H; discriminate H);
    try (intros _ H; discriminate H);
    try (intros _ _; do 2 eexists; splits; try reflexivity; pick).
Qed.

(** A failed reload does not stop [summarize] from using what an earlier
    load left: on an object that has both handles but [is_loaded] false,
    when the model acquisition raises and [load_model] returns (its
    diagnostic line was written), [summarize] still calls the old
    tokenizer on the prompt, any [generate] goes to the old model, and the
    object is left exactly as it was. *)
Theorem summarize_stale_handles (s : State) (d m : string) (n : Z)
        (t : Tokenizer) (mdl0 : Model) :
  is_loaded (self s) = false ->
  tokenizer (self s) = Some t ->
  model (self s) = Some mdl0 ->
  (exists e w1,
      model_from_pretrained (model_name (self s)) (world s) = (Raise e, w1)) ->
  fst (fst (load_model s)) = Return tt ->
  self (snd (fst (summarize d m n s))) = self s /\
  count is_call_load_model (snd (summarize d m n s)) = 1 /\
  (exists r0,
      In (Ev_tokenizer_call t (_create_prompt (self s) d m) "pt" true r0)
         (snd (summarize d m n s))) /\
  (forall mdl ids k b es out,
      In (Ev_generate mdl ids k b es out) (snd (summarize d m n s)) ->
      mdl = mdl0).
Proof.
  destruct s as [[name mdl1 tok loaded] w]. cbn [self world model_name
    is_loaded tokenizer model].
  intros -> -> -> (e & w1 & He).
  unfold summarize. unfold_monad. cbn -[load_model].
  rewrite load_model_cases. cbv zeta. cbn [self world model_name].
  rewrite He.
  crack; intros Hret; try discriminate Hret;
    splits; try reflexivity;
    try (eexists; pick);
    intros mdl ids k b es out Hin;
    repeat (destruct Hin as [Hin|Hin]; [try discriminate Hin|]);
    try contradiction;
    now injection Hin as <- <- <- <- <- <-.
Qed.

(** The tokenizer is called at most once in a call of [summarize], with
    the object's tokenizer, the prompt, [return_tensors="pt"] and
    [truncation=True]; when that call raises, [summarize] raises the same
    exception and neither the [no_grad] block, [generate] nor [decode]
    is reached. *)
Theorem summarize_tokenization (s : State) (d m : string) (n : Z)
        (r : result string) (s' : State) (evs : list Event) :
  summarize d m n s = (r, s', evs) ->
  count is_tokenizer_call evs <= 1 /\
  forall t text rt tr r0,
    In (Ev_tokenizer_call t text rt tr r0) evs ->
    tokenizer (self s') = Some t /\
    text = _create_prompt (self s') d m /\
    rt = "pt" /\ tr = true /\
    forall e, r0 = Raise e ->
      r = Raise e /\
      count is_no_grad_enter evs = 0 /\
      count is_generate evs = 0 /\
      count is_decode evs = 0.
Proof.
  destruct s as [[name mdl0 tok loaded] w].
  unfold summarize. unfold_monad.
  destruct loaded; cbn -[load_model];
    [|rewrite load_model_cases];
    crack; intros [= <- <- <-]; (split; [cbn; lia|]);
    intros t' text rt tr r0 Hin; cbn in Hin;
    repeat (destruct Hin as [Hin|Hin]; [try discriminate Hin|]);
    try contradiction;
    injection Hin as <- <- <- <- <-;
    splits; try reflexivity;
    intros e' [= <-]; splits; reflexivity.
Qed.

(** Gradient recording is always restored: in every call of [summarize]
    the [no_grad] block is left as often as it is entered, also when
    [generate] raises, and every [generate] call sits directly between
    the entry and the exit. *)
Theorem summarize_no_grad_balanced (s : State) (d m : string) (n : Z) :
  count is_no_grad_enter (snd (summarize d m n s)) =
    count is_no_grad_exit (snd (summarize d m n s)) /\
  forall mdl ids k b es out,
    In (Ev_generate mdl ids k b es out) (snd (summarize d m n s)) ->
    exists pre post,
      snd (summarize d m n s) =
        (pre ++ [Ev_no_grad_enter; Ev_generate mdl ids k b es out;
                 Ev_no_grad_exit] ++ post)%list.
Proof.
  destruct s as [[name mdl0 tok loaded] w].
  unfold summarize. unfold_monad.
  destruct loaded; cbn -[load_model];
    [|rewrite load_model_cases];
    crack; (split; [reflexivity|]);
    intros mdl ids k b es out Hin; cbn in Hin;
    repeat (destruct Hin as [Hin|Hin]; [try discriminate Hin|]);
    try contradiction;
    injection Hin as <- <- <- <- <- <-;
    bracket.
Qed.

(** *** Sequences of calls *)

(** Once the object is loaded, [summarize] never loads again: any number of
    [summarize] calls, whatever they return or raise, leave the object as
    it is and ask the library for no handle. *)
Theorem run_summarize_loaded (ops : list Op) (s : State) :
  forallb is_summarize ops = true ->
  is_loaded (self s) = true ->
  self (fst (run ops s)) = self s /\
  count is_call_load_model (snd (run ops s)) = 0 /\
  count is_acquisition (snd (run ops s)) = 0.
Proof.
  revert s; induction ops as [|op ops IH]; intros s Hops Hl.
  - splits; reflexivity.
  - cbn in Hops. apply andb_prop in Hops. destruct Hops as [Hop Hops].
    destruct op as [|d m n]; [discriminate Hop|].
    destruct (summarize_loaded s d m n Hl) as (Hs & Hc & Ha & _).
    cbn [run perform].
    destruct (summarize d m n s) as [[r s1] ev1]. cbn [fst snd] in *.
    assert (Hl1 : is_loaded (self s1) = true) by now rewrite Hs.
    destruct (IH s1 Hops Hl1) as (Hs' & Hc' & Ha').
    destruct (run ops s1) as [s2 ev2]. cbn [fst snd] in *.
    rewrite !count_app. splits; [congruence | lia | lia].
Qed.

(** One [summarize] call on an object without a tokenizer, when the model
    acquisition raises. *)
Lemma summarize_failing (s : State) (d m : string) (n : Z) :
  is_loaded (self s) = false ->
  tokenizer (self s) = None ->
  (exists e w1,
      model_from_pretrained (model_name (self s)) (world s) = (Raise e, w1)) ->
  self (snd (fst (summarize d m n s))) = self s /\
  (exists e, fst (fst (summarize d m n s)) = Raise e) /\
  count is_call_load_model (snd (summarize d m n s)) = 1 /\
  count is_print (snd (summarize d m n s))
    + count is_print_raised (snd (summarize d m n s)) = 1 /\
  count is_tokenizer_call (snd (summarize d m n s)) = 0 /\
  count is_generate (snd (summarize d m n s)) = 0.
Proof.
  destruct s as [[name mdl1 tok loaded] w]. cbn [self world model_name
    is_loaded tokenizer].
  intros -> -> (e & w1 & He).
  unfold summarize. unfold_monad. cbn -[load_model].
  rewrite load_model_cases. cbv zeta. cbn [self world model_name].
  rewrite He. crack; splits; try reflexivity; eexists; reflexivity.
Qed.

(** A failure to load is not remembered.  While the model cannot be
    acquired, every [summarize] call on an object without a tokenizer
    tries [load_model] again, makes one attempt to print a diagnostic
    line and raises before any tokenizer or [generate] call: after k
    calls there were k load attempts and k diagnostic lines printed or
    refused, and the object is as it was. *)
Theorem run_summarize_retries (ops : list Op) (s : State) :
  (forall w, exists e w1,
      model_from_pretrained (model_name (self s)) w = (Raise e, w1)) ->
  forallb is_summarize ops = true ->
  is_loaded (self s) = false ->
  tokenizer (self s) = None ->
  self (fst (run ops s)) = self s /\
  count is_call_load_model (snd (run ops s)) = length ops /\
  count is_print (snd (run ops s))
    + count is_print_raised (snd (run ops s)) = length ops /\
  count is_tokenizer_call (snd (run ops s)) = 0 /\
  count is_generate (snd (run ops s)) = 0.
Proof.
  revert s; induction ops as [|op ops IH]; intros s Hf Hops Hl Ht.
  - splits; reflexivity.
  - cbn in Hops. apply andb_prop in Hops. destruct Hops as [Hop Hops].
    destruct op as [|d m n]; [discriminate Hop|].
    destruct (summarize_failing s d m n Hl Ht (Hf (world s)))
      as (Hs & _ & Hc & Hp & Hk & Hg).
    cbn [run perform].
    destruct (summarize d m n s) as [[r s1] ev1]. cbn [fst snd] in *.
    assert (Hf1 : forall w, exists e w1,
               model_from_pretrained (model_name (self s1)) w = (Raise e, w1))
      by now rewrite Hs.
    assert (Hl1 : is_loaded (self s1) = false) by now rewrite Hs.
    assert (Ht1 : tokenizer (self s1) = None) by now rewrite Hs.
    destruct (IH s1 Hf1 Hops Hl1 Ht1) as (Hs' & Hc' & Hp' & Hk' & Hg').
    destruct (run ops s1) as [s2 ev2]. cbn [fst snd length] in *.
    rewrite !count_app. splits; [congruence | lia | lia | lia | lia].
Qed.

(** One operation keeps the model name and acquires for it only. *)
Lemma perform_model_name (op : Op) (s : State) :
  model_name (self (fst (perform op s))) = model_name (self s) /\
  forallb (acquires_for (model_name (self s))) (snd (perform op s)) = true.
Proof.
  destruct s as [[name mdl0 tok loaded] w].
  destruct op as [|d m n]; unfold perform.
  - rewrite load_model_cases.
    crack; rewrite ?String.eqb_refl; auto.
  - unfold summarize. unfold_monad.
    destruct loaded; cbn -[load_model];
      [|rewrite load_model_cases];
      crack; rewrite ?String.eqb_refl; auto.
Qed.

(** The model name given at construction is never changed, and along any
    use of the object every acquisition is made for that name, the
    tokenizer's with [use_fast=True]. *)
Theorem run_model_name (name : string) (w : World) (ops : list Op) :
  model_name (self (fst (run ops (construct name w)))) = name /\
  forallb (acquires_for name) (snd (run ops (construct name w))) = true.
Proof.
  change name with (model_name (self (construct name w))) at 2 3.
  generalize (construct name w). clear name w.
  induction ops as [|op ops IH]; intros s; [split; reflexivity|].
  cbn [run].
  destruct (perform_model_name op s) as [H1 H2].
  destruct (perform op s) as [s1 ev1]. cbn [fst snd] in *.
  destruct (IH s1) as [H3 H4].
  destruct (run ops s1) as [s2 ev2]. cbn [fst snd] in *.
  rewrite forallb_app, H2. rewrite H1 in H3, H4. now rewrite H3, H4.
Qed.

(** *** The script *)

(** When the acquisition fails, the script never gets to its summary: it
    ends with an exception, all it did is the load attempt, and no line
    "Generated Summary: ..." is printed.  When [load_model] returned (its
    diagnostic line was written), the exception is the [TypeError] of
    calling [None] and that line is the only one printed. *)
Theorem main_without_model (w : World) :
  acquisition_fails default_model_name w ->
  (exists e, fst (fst (main w)) = Raise e) /\
  snd (main w) = snd (load_model (construct default_model_name w)) /\
  (forall summary,
      ~ In (Ev_print ("Generated Summary: " ++ summary)) (snd (main w))) /\
  (fst (fst (load_model (construct default_model_name w))) = Return tt ->
   fst (fst (main w)) = Raise NoneType_not_callable /\
   count is_print (snd (main w)) = 1).
Proof.
  intros Hf. unfold main, summarize. unfold_monad.
  cbn -[load_model]. rewrite load_model_cases. cbv zeta.
  cbn [self world model_name construct __init__].
  destruct Hf as [(e & w1 & ->) | (m0 & w1 & e & w2 & -> & ->)];
    crack; splits; try reflexivity;
    try (eexists; reflexivity);
    try (intros H; discriminate H);
    try (intros _; split; reflexivity);
    intros summary Hin;
    repeat (destruct Hin as [Hin|Hin]; [try discriminate Hin|]);
    exact Hin.
Qed.


End SummarizerMore.

(** ** The setup script *)

Section SetupFacts.

Context {py : Interpreter}.


End SetupFacts.

(** ** The further theorems at work on the doubles *)


(** A module without [__version__]: the script ends with the
    [AttributeError] after its third line. *)
Example test_setup_without_version :
  @test_setup (ToyPy.interpreter true true false "ImportError") 0 =
    (Raise (PyExc "AttributeError" "module has no attribute '__version__'"),
     2,
     [Printed "🚀 Project setup successful!";
      Printed "Testing basic imports...";
      Imported (py := ToyPy.interpreter true true false "ImportError")
               "torch" (Return "2.1.0");
      Imported (py := ToyPy.interpreter true true false "ImportError")
               "transformers" (Return "4.35.0");
      Printed "✅ All imports work correctly!"]).
Proof. reflexivity. Qed.

Lemma summarize_loaded_frame_witness :
  is_loaded (self (fst (@run (Toy.library true true) [Op_load_model]
                             (Toy.fresh true true)))) = true /\
  count is_acquisition
    (snd (@summarize (Toy.library true true) "X" "one-shot" 20
            (fst (@run (Toy.library true true) [Op_load_model]
                       (Toy.fresh true true))))) = 0.
Proof.
  refine (conj eq_refl _).
  exact (proj1 (proj2 (proj2
           (@summarize_loaded_frame (Toy.library true true)
              (fst (@run (Toy.library true true) [Op_load_model]
                         (Toy.fresh true true)))
              "X" "one-shot" 20%Z eq_refl)))).
Defined.


Lemma load_model_result_handles_witness :
  is_loaded (self (snd (fst (@load_model (Toy.library true false)
                               (Toy.fresh true false))))) = false /\
  tokenizer (self (snd (fst (@load_model (Toy.library true false)
                               (Toy.fresh true false))))) = None.
Proof.
  refine (conj eq_refl _).
  exact (proj2 (proj2 (proj2 (proj2
           (@load_model_result_handles (Toy.library true false)
              (Toy.fresh true false) _ _ _ eq_refl))))
           eq_refl eq_refl).
Defined.

(** An object that was loaded, then failed to reload, still summarizes. *)
Lemma summarize_stale_handles_witness :
  is_loaded (self (fst (@run Scripted.library [Op_load_model; Op_load_model]
                             (Scripted.fresh [true; true; false])))) = false /\
  fst (fst (@summarize Scripted.library "X" "few-shot" 50
              (fst (@run Scripted.library [Op_load_model; Op_load_model]
                         (Scripted.fresh [true; true; false])))))
    = Return "Tom tells #Person1# there is time." /\
  count is_call_load_model
    (snd (@summarize Scripted.library "X" "few-shot" 50
            (fst (@run Scripted.library [Op_load_model; Op_load_model]
                       (Scripted.fresh [true; true; false]))))) = 1.
Proof.
  refine (conj eq_refl (conj eq_refl _)).
  exact (proj1 (proj2
           (@summarize_stale_handles Scripted.library
              (fst (@run Scripted.library [Op_load_model; Op_load_model]
                         (Scripted.fresh [true; true; false])))
              "X" "few-shot" 50%Z
              "tokenizer:google/flan-t5-base" "model:google/flan-t5-base"
              eq_refl eq_refl eq_refl
              (ex_intro _ Toy.load_error (ex_intro _ [] eq_refl))
              eq_refl))).
Defined.

Lemma summarize_tokenization_witness :
  fst (fst (@summarize (Faulty.library false true) "X" "few-shot" 50
              (Faulty.fresh false true)))
    = Raise Faulty.overflow /\
  count is_generate
    (snd (@summarize (Faulty.library false true) "X" "few-shot" 50
            (Faulty.fresh false true))) = 0.
Proof.
  assert (Hin :
    In (Ev_tokenizer_call (lib := Faulty.library false true)
          "tokenizer:google/flan-t5-base"
          (_create_prompt Toy.object "X" "few-shot") "pt" true
          (Raise Faulty.overflow))
       (snd (@summarize (Faulty.library false true) "X" "few-shot" 50
               (Faulty.fresh false true))))
    by (vm_compute; pick).
  destruct (@summarize (Faulty.library false true) "X" "few-shot" 50
              (Faulty.fresh false true)) as [[r s'] evs] eqn:E.
  destruct (@summarize_tokenization (Faulty.library false true)
              _ _ _ _ _ _ _ E) as [_ H].
  destruct (H _ _ _ _ _ Hin) as (_ & _ & _ & _ & H').
  destruct (H' _ eq_refl) as (Hr & _ & Hg & _).
  split; [exact Hr | exact Hg].
Defined.

Lemma summarize_no_grad_balanced_witness :
  exists pre post,
    snd (@summarize (Faulty.library true false) "X" "few-shot" 50
           (Faulty.fresh true false)) =
      (pre ++
       [Ev_no_grad_enter;
        Ev_generate (lib := Faulty.library true false)
          "model:google/flan-t5-base"
          (input_ids (Toy.encode (_create_prompt Toy.object "X" "few-shot")))
          50%Z 4%Z true (Raise Faulty.overflow);
        Ev_no_grad_exit] ++ post)%list.
Proof.
  apply (proj2 (@summarize_no_grad_balanced (Faulty.library true false)
                  (Faulty.fresh true false) "X" "few-shot" 50%Z)).
  vm_compute; pick.
Defined.

Lemma run_summarize_loaded_witness :
  count is_acquisition
    (snd (@run (Toy.library true true)
            [Op_summarize "X" "few-shot" 50; Op_summarize "Y" "" 0]
            (fst (@run (Toy.library true true) [Op_load_model]
                       (Toy.fresh true true))))) = 0.
Proof.
  exact (proj2 (proj2
           (@run_summarize_loaded (Toy.library true true)
              [Op_summarize "X" "few-shot" 50; Op_summarize "Y" "" 0]
              (fst (@run (Toy.library true true) [Op_load_model]
                         (Toy.fresh true true)))
              eq_refl eq_refl))).
Defined.

Lemma run_summarize_retries_witness :
  count is_call_load_model
    (snd (@run (Toy.library false false)
            [Op_summarize "X" "few-shot" 50; Op_summarize "X" "few-shot" 50;
             Op_summarize "Y" "zero-shot" 10]
            (Toy.fresh false false))) = 3.
Proof.
  refine (proj1 (proj2
           (@run_summarize_retries (Toy.library false false)
              [Op_summarize "X" "few-shot" 50; Op_summarize "X" "few-shot" 50;
               Op_summarize "Y" "zero-shot" 10]
              (Toy.fresh false false) _ eq_refl eq_refl eq_refl))).
  intros w. exists Toy.load_error, (S w). reflexivity.
Defined.

Lemma main_without_model_witness :
  fst (fst (@main (Toy.library false false) 0))
    = Raise NoneType_not_callable /\
  count is_print (snd (@main (Toy.library false false) 0)) = 1.
Proof.
  refine (proj2 (proj2 (proj2
            (@main_without_model (Toy.library false false) 0%nat _)))
            eq_refl).
  left. exists Toy.load_error, 1%nat. reflexivity.
Defined.

(** The same script on a console that cannot encode the diagnostic line:
    it ends inside [load_model] and prints nothing. *)
Example main_on_narrow_console :
  fst (fst (@main (Narrow.library false true) 0))
    = Raise Narrow.encode_error /\
  count is_print (snd (@main (Narrow.library false true) 0)) = 0.
Proof. split; reflexivity. Qed.


(** A [print] that raises changes the run: when the success line of
    [load_model] is refused and its diagnostic line is written, the script
    still ends normally, with [is_loaded] false and both handles set. *)
Example main_after_refused_line :
  fst (fst (@main Hiccup.library 0)) = Return tt /\
  count is_print_raised (snd (@main Hiccup.library 0)) = 1 /\
  is_loaded (self (snd (fst (@main Hiccup.library 0)))) = false /\
  paired (self (snd (fst (@main Hiccup.library 0)))) = true /\
  List.last (snd (@main Hiccup.library 0)) Call_load_model =
    Ev_print "Generated Summary: Tom tells #Person1# there is time.".
Proof. repeat split. Qed.
